(** * BTHM_ideal: the property-package configuration of the HDA workshop

    The module [BTHM_ideal.py] binds one name, [configuration], to a nested
    dictionary literal: physical-property data for benzene, toluene, hydrogen
    and methane, the two phases of the model, the state bounds, the reference
    state and the declared phase equilibria.  This development embeds that
    literal as a value of a small universe of Python objects and checks the
    structural properties of the table. *)

From Stdlib Require Import ZArith QArith.
From Stdlib Require Import Floats.PrimFloat Floats.SpecFloat Floats.FloatOps.
From stdpp Require Import base option list strings gmap.

Set Warnings "-register-all,-inexact-float".

Local Open Scope string_scope.

(** ** Units of measurement

    The names taken from [pyomo.environ.units] (imported as [pyunits]). *)

Module pyunits.
Inductive name := kg | mol | Pa | K | kmol | m | J | s.

#[global] Instance name_eq_dec : EqDecision name.
Proof. solve_decision. Defined.
End pyunits.

(** A unit expression, as the operators [*], [/] and [**] build it. *)
Inductive uexpr :=
| UAtom (n : pyunits.name)
| UMul (a b : uexpr)
| UDiv (a b : uexpr)
| UPow (a : uexpr) (k : Z).

Coercion UAtom : pyunits.name >-> uexpr.

#[global] Instance uexpr_eq_dec : EqDecision uexpr.
Proof. solve_decision. Defined.

Declare Scope unit_scope.
Delimit Scope unit_scope with U.
Bind Scope unit_scope with uexpr.
Notation "a * b" := (UMul a b) : unit_scope.
Notation "a / b" := (UDiv a b) : unit_scope.
Notation "a ** k" := (UPow a k%Z) (at level 30, right associativity) : unit_scope.

(** The exponent a unit expression gives to one unit name. *)
Fixpoint dim (u : uexpr) (n : pyunits.name) : Z :=
  match u with
  | UAtom n' => if decide (n' = n) then 1 else 0
  | UMul a b => dim a n + dim b n
  | UDiv a b => dim a n - dim b n
  | UPow a k => k * dim a n
  end%Z.

(** Two unit expressions denote the same unit when they give every name the
    same exponent. *)
Definition same_unit (u v : uexpr) : Prop := ∀ n, dim u n = dim v n.

Definition all_names : list pyunits.name :=
  [pyunits.kg; pyunits.mol; pyunits.Pa; pyunits.K; pyunits.kmol; pyunits.m;
   pyunits.J; pyunits.s].

Definition same_unitb (u v : uexpr) : bool :=
  forallb (λ n, Z.eqb (dim u n) (dim v n)) all_names.

(** ** Imported objects

    The classes, modules and functions the file imports from the modelling
    framework and stores in the table by reference. *)
Inductive pyobj :=
| Component
| LiquidPhase
| VaporPhase
| PT_vaporPhase
| FpcTP
| Ideal
| smooth_VLE
| IdealBubbleDew
| fugacity
| Perrys
| RPP
| NIST.

#[global] Instance pyobj_eq_dec : EqDecision pyobj.
Proof. solve_decision. Defined.

(** ** Python values *)

(** Dictionary keys of the table: strings and tuples of strings. *)
Inductive pykey :=
| KStr (k : string)
| KTuple (ks : list string).

Coercion KStr : string >-> pykey.

#[global] Instance pykey_eq_dec : EqDecision pykey.
Proof. solve_decision. Defined.

#[global] Instance pykey_countable : Countable pykey.
Proof.
  refine (inj_countable'
            (λ k, match k with KStr x => inl x | KTuple l => inr l end)
            (λ x, match x with inl x => KStr x | inr l => KTuple l end) _).
  by intros [].
Defined.

Inductive pyval :=
| PInt (z : Z)
| PFloat (f : float)
| PNone
| PStr (x : string)
| PUnits (u : uexpr)
| PObj (o : pyobj)
| PTuple (vs : list pyval)
| PList (vs : list pyval)
| PDict (items : list (pykey * pyval)).

Arguments PInt _%_Z.
Arguments PFloat _%_float.
Arguments PUnits _%_U.

(** A dictionary keeps its items in insertion order.  [d[k] = v] replaces the
    value of a key that is present, in place, and appends a new key. *)
Fixpoint dict_set (items : list (pykey * pyval)) (k : pykey) (v : pyval)
  : list (pykey * pyval) :=
  match items with
  | [] => [(k, v)]
  | (k', v') :: rest =>
      if decide (k' = k) then (k', v) :: rest
      else (k', v') :: dict_set rest k v
  end.

(** A dictionary display [{k1: v1, ..., kn: vn}]: the items are inserted from
    left to right, a later item replacing an earlier one with the same key. *)
Definition py_dict (items : list (pykey * pyval)) : pyval :=
  PDict (foldl (λ d kv, dict_set d kv.1 kv.2) [] items).

Fixpoint dict_get (items : list (pykey * pyval)) (k : pykey) : option pyval :=
  match items with
  | [] => None
  | (k', v) :: rest => if decide (k' = k) then Some v else dict_get rest k
  end.

(** [v[k]] on a dictionary; [None] stands for the KeyError or TypeError. *)
Definition getitem (v : pyval) (k : pykey) : option pyval :=
  match v with
  | PDict items => dict_get items k
  | _ => None
  end.

(** [v[i]] on a tuple or a list. *)
Definition index (v : pyval) (i : nat) : option pyval :=
  match v with
  | PTuple vs | PList vs => vs !! i
  | _ => None
  end.

(** Chained subscripts [v[k1][k2]...[kn]]: the first failure is the result. *)
Class Subscript (A : Type) := subscript : A → pykey → option pyval.
#[global] Hint Mode Subscript ! : typeclass_instances.

#[global] Instance subscript_val : Subscript pyval := getitem.
#[global] Instance subscript_opt : Subscript (option pyval) :=
  λ o k, o ≫= λ v, getitem v k.

Notation "v .[ k ]" := (subscript v k)
  (at level 1, left associativity, format "v .[ k ]").

(** [list(v.items())] and [list(v.keys())], in insertion order. *)
Definition items (v : pyval) : option (list (pykey * pyval)) :=
  match v with
  | PDict its => Some its
  | _ => None
  end.

Definition keys (v : pyval) : option (list pykey) :=
  match v with
  | PDict its => Some (its.*1)
  | _ => None
  end.

(** [set(v)]: the keys of a dictionary as a set. *)
Definition key_set (v : pyval) : option (gset pykey) :=
  list_to_set <$> keys v.

(** The elements of a tuple or list. *)
Definition elements_of (v : pyval) : option (list pyval) :=
  match v with
  | PTuple vs | PList vs => Some vs
  | _ => None
  end.

(** ** Numbers

    A Python [int] is unbounded; a [float] is a binary64.  Comparison of the
    two is exact, so both are read as rationals. *)
Definition float_value (f : float) : option Q :=
  match Prim2SF f with
  | S754_zero _ => Some 0%Q
  | S754_finite sign mant e =>
      let mag :=
        if (0 <=? e)%Z then inject_Z (Z.pos mant * 2 ^ e)
        else (Z.pos mant # Z.to_pos (2 ^ (- e)))%Q in
      Some (if sign then Qopp mag else mag)
  | S754_infinity _ | S754_nan => None
  end.

Definition num_value (v : pyval) : option Q :=
  match v with
  | PInt z => Some (inject_Z z)
  | PFloat f => float_value f
  | _ => None
  end.

(** [a <= b] and [a < b] on numbers. *)
Definition py_le (a b : pyval) : option bool :=
  x ← num_value a; y ← num_value b; Some (Qle_bool x y).

Definition py_lt (a b : pyval) : option bool :=
  x ← num_value a; y ← num_value b; Some (negb (Qle_bool y x)).

(** ** The table *)

Definition configuration : pyval :=
  py_dict [
    (* Specifying components *)
    (KStr "components", py_dict [
      (KStr "benzene", py_dict [
        (KStr "type", PObj Component);
        (KStr "dens_mol_liq_comp", PObj Perrys);
        (KStr "enth_mol_liq_comp", PObj Perrys);
        (KStr "enth_mol_ig_comp", PObj RPP);
        (KStr "pressure_sat_comp", PObj NIST);
        (KStr "phase_equilibrium_form",
          py_dict [(KTuple ["Vap"; "Liq"], PObj fugacity)]);
        (KStr "parameter_data", py_dict [
          (KStr "mw", PTuple [PFloat 78.1136E-3; PUnits (pyunits.kg / pyunits.mol)]);
          (KStr "pressure_crit", PTuple [PFloat 48.9e5; PUnits pyunits.Pa]);
          (KStr "temperature_crit", PTuple [PFloat 562.2; PUnits pyunits.K]);
          (KStr "dens_mol_liq_comp_coeff", py_dict [
            (KStr "1", PTuple [PFloat 1.0162; PUnits (pyunits.kmol * pyunits.m ** (-3))]);
            (KStr "2", PTuple [PFloat 0.2655; PNone]);
            (KStr "3", PTuple [PFloat 562.16; PUnits pyunits.K]);
            (KStr "4", PTuple [PFloat 0.28212; PNone])]);
          (KStr "cp_mol_ig_comp_coeff", py_dict [
            (KStr "A", PTuple [PFloat (-3.392E1); PUnits (pyunits.J / pyunits.mol / pyunits.K)]);
            (KStr "B", PTuple [PFloat 4.739E-1; PUnits (pyunits.J / pyunits.mol / pyunits.K ** 2)]);
            (KStr "C", PTuple [PFloat (-3.017E-4); PUnits (pyunits.J / pyunits.mol / pyunits.K ** 3)]);
            (KStr "D", PTuple [PFloat 7.130E-8; PUnits (pyunits.J / pyunits.mol / pyunits.K ** 4)])]);
          (KStr "cp_mol_liq_comp_coeff", py_dict [
            (KStr "1", PTuple [PFloat 1.29E5;
                               PUnits (pyunits.J * pyunits.kmol ** (-1) * pyunits.K ** (-1))]);
            (KStr "2", PTuple [PFloat (-1.7E2);
                               PUnits (pyunits.J * pyunits.kmol ** (-1) * pyunits.K ** (-2))]);
            (KStr "3", PTuple [PFloat 6.48E-1;
                               PUnits (pyunits.J * pyunits.kmol ** (-1) * pyunits.K ** (-3))]);
            (KStr "4", PTuple [PInt 0;
                               PUnits (pyunits.J * pyunits.kmol ** (-1) * pyunits.K ** (-4))]);
            (KStr "5", PTuple [PInt 0;
                               PUnits (pyunits.J * pyunits.kmol ** (-1) * pyunits.K ** (-5))])]);
          (KStr "enth_mol_form_liq_comp_ref",
            PTuple [PFloat (-49.0e3); PUnits (pyunits.J / pyunits.mol)]);
          (KStr "enth_mol_form_vap_comp_ref",
            PTuple [PFloat (-82.9e3); PUnits (pyunits.J / pyunits.mol)]);
          (KStr "pressure_sat_comp_coeff", py_dict [
            (KStr "A", PTuple [PFloat 4.60362; PNone]);
            (KStr "B", PTuple [PFloat 1701.073; PUnits pyunits.K]);
            (KStr "C", PTuple [PFloat 20.806; PUnits pyunits.K])])])]);
      (KStr "toluene", py_dict [
        (KStr "type", PObj Component);
        (KStr "dens_mol_liq_comp", PObj Perrys);
        (KStr "enth_mol_liq_comp", PObj Perrys);
        (KStr "enth_mol_ig_comp", PObj RPP);
        (KStr "pressure_sat_comp", PObj NIST);
        (KStr "phase_equilibrium_form",
          py_dict [(KTuple ["Vap"; "Liq"], PObj fugacity)]);
        (KStr "parameter_data", py_dict [
          (KStr "mw", PTuple [PFloat 92.1405E-3; PUnits (pyunits.kg / pyunits.mol)]);
          (KStr "pressure_crit", PTuple [PFloat 41e5; PUnits pyunits.Pa]);
          (KStr "temperature_crit", PTuple [PFloat 591.8; PUnits pyunits.K]);
          (KStr "dens_mol_liq_comp_coeff", py_dict [
            (KStr "1", PTuple [PFloat 0.8488; PUnits (pyunits.kmol * pyunits.m ** (-3))]);
            (KStr "2", PTuple [PFloat 0.26655; PNone]);
            (KStr "3", PTuple [PFloat 591.8; PUnits pyunits.K]);
            (KStr "4", PTuple [PFloat 0.2878; PNone])]);
          (KStr "cp_mol_ig_comp_coeff", py_dict [
            (KStr "A", PTuple [PFloat (-2.435E1); PUnits (pyunits.J / pyunits.mol / pyunits.K)]);
            (KStr "B", PTuple [PFloat 5.125E-1; PUnits (pyunits.J / pyunits.mol / pyunits.K ** 2)]);
            (KStr "C", PTuple [PFloat (-2.765E-4); PUnits (pyunits.J / pyunits.mol / pyunits.K ** 3)]);
            (KStr "D", PTuple [PFloat 4.911E-8; PUnits (pyunits.J / pyunits.mol / pyunits.K ** 4)])]);
          (KStr "cp_mol_liq_comp_coeff", py_dict [
            (KStr "1", PTuple [PFloat 1.40E5;
                               PUnits (pyunits.J * pyunits.kmol ** (-1) * pyunits.K ** (-1))]);
            (KStr "2", PTuple [PFloat (-1.522);
                               PUnits (pyunits.J * pyunits.kmol ** (-1) * pyunits.K ** (-2))]);
            (KStr "3", PTuple [PFloat 6.95E-1;
                               PUnits (pyunits.J * pyunits.kmol ** (-1) * pyunits.K ** (-3))]);
            (KStr "4", PTuple [PInt 0;
                               PUnits (pyunits.J * pyunits.kmol ** (-1) * pyunits.K ** (-4))]);
            (KStr "5", PTuple [PInt 0;
                               PUnits (pyunits.J * pyunits.kmol ** (-1) * pyunits.K ** (-5))])]);
          (KStr "enth_mol_form_liq_comp_ref",
            PTuple [PFloat (-12.0e3); PUnits (pyunits.J / pyunits.mol)]);
          (KStr "enth_mol_form_vap_comp_ref",
            PTuple [PFloat (-50.1e3); PUnits (pyunits.J / pyunits.mol)]);
          (KStr "pressure_sat_comp_coeff", py_dict [
            (KStr "A", PTuple [PFloat 4.54436; PNone]);
            (KStr "B", PTuple [PFloat 1738.123; PUnits pyunits.K]);
            (KStr "C", PTuple [PFloat 0.394; PUnits pyunits.K])])])]);
      (KStr "hydrogen", py_dict [
        (KStr "type", PObj Component);
        (KStr "valid_phase_types", PObj PT_vaporPhase);
        (KStr "enth_mol_ig_comp", PObj RPP);
        (KStr "parameter_data", py_dict [
          (KStr "mw", PTuple [PFloat 2.016e-3; PUnits (pyunits.kg / pyunits.mol)]);
          (KStr "pressure_crit", PTuple [PFloat 12.9e5; PUnits pyunits.Pa]);
          (KStr "temperature_crit", PTuple [PFloat 33.0; PUnits pyunits.K]);
          (KStr "cp_mol_ig_comp_coeff", py_dict [
            (KStr "A", PTuple [PFloat 2.714e1; PUnits (pyunits.J / pyunits.mol / pyunits.K)]);
            (KStr "B", PTuple [PFloat 9.274e-3; PUnits (pyunits.J / pyunits.mol / pyunits.K ** 2)]);
            (KStr "C", PTuple [PFloat (-1.381e-5); PUnits (pyunits.J / pyunits.mol / pyunits.K ** 3)]);
            (KStr "D", PTuple [PFloat 7.645e-9; PUnits (pyunits.J / pyunits.mol / pyunits.K ** 4)])]);
          (KStr "enth_mol_form_vap_comp_ref",
            PTuple [PInt 0; PUnits (pyunits.J / pyunits.mol)])])]);
      (KStr "methane", py_dict [
        (KStr "type", PObj Component);
        (KStr "valid_phase_types", PObj PT_vaporPhase);
        (KStr "enth_mol_ig_comp", PObj RPP);
        (KStr "parameter_data", py_dict [
          (KStr "mw", PTuple [PFloat 16.043e-3; PUnits (pyunits.kg / pyunits.mol)]);
          (KStr "pressure_crit", PTuple [PFloat 46e5; PUnits pyunits.Pa]);
          (KStr "temperature_crit", PTuple [PFloat 190.4; PUnits pyunits.K]);
          (KStr "cp_mol_ig_comp_coeff", py_dict [
            (KStr "A", PTuple [PFloat 1.925e1; PUnits (pyunits.J / pyunits.mol / pyunits.K)]);
            (KStr "B", PTuple [PFloat 5.213e-2; PUnits (pyunits.J / pyunits.mol / pyunits.K ** 2)]);
            (KStr "C", PTuple [PFloat 1.197e-5; PUnits (pyunits.J / pyunits.mol / pyunits.K ** 3)]);
            (KStr "D", PTuple [PFloat (-1.132e-8); PUnits (pyunits.J / pyunits.mol / pyunits.K ** 4)])]);
          (KStr "enth_mol_form_vap_comp_ref",
            PTuple [PFloat (-75e3); PUnits (pyunits.J / pyunits.mol)])])])]);

    (* Specifying phases *)
    (KStr "phases", py_dict [
      (KStr "Liq", py_dict [(KStr "type", PObj LiquidPhase);
                            (KStr "equation_of_state", PObj Ideal)]);
      (KStr "Vap", py_dict [(KStr "type", PObj VaporPhase);
                            (KStr "equation_of_state", PObj Ideal)])]);

    (* Set base units of measurement *)
    (KStr "base_units", py_dict [
      (KStr "time", PUnits pyunits.s);
      (KStr "length", PUnits pyunits.m);
      (KStr "mass", PUnits pyunits.kg);
      (KStr "amount", PUnits pyunits.mol);
      (KStr "temperature", PUnits pyunits.K)]);

    (* Specifying state definition *)
    (KStr "state_definition", PObj FpcTP);
    (KStr "state_bounds", py_dict [
      (KStr "flow_mol_comp",
        PTuple [PInt 0; PInt 100; PInt 1000; PUnits (pyunits.mol / pyunits.s)]);
      (KStr "temperature",
        PTuple [PFloat 273.15; PInt 300; PInt 1000; PUnits pyunits.K]);
      (KStr "pressure",
        PTuple [PFloat 5e4; PFloat 1e5; PFloat 1e6; PUnits pyunits.Pa])]);
    (KStr "pressure_ref", PTuple [PInt 101325; PUnits pyunits.Pa]);
    (KStr "temperature_ref", PTuple [PInt 300; PUnits pyunits.K]);

    (* Defining phase equilibria *)
    (KStr "phases_in_equilibrium", PList [PTuple [PStr "Vap"; PStr "Liq"]]);
    (KStr "phase_equilibrium_state",
      py_dict [(KTuple ["Vap"; "Liq"], PObj smooth_VLE)]);
    (KStr "bubble_dew_method", PObj IdealBubbleDew)].


(** ** What the table is checked against *)

(** The four correlation forms a species entry can declare. *)
Inductive corr_form :=
| Perrys_liquid_density
| Perrys_liquid_heat_capacity
| RPP_ideal_gas_heat_capacity
| NIST_saturation_pressure.

(** The form declared by the item [prop: method] of a species entry. *)
Definition declared_form (prop : pykey) (method : pyobj) : option corr_form :=
  if decide (prop = KStr "dens_mol_liq_comp" ∧ method = Perrys)
  then Some Perrys_liquid_density
  else if decide (prop = KStr "enth_mol_liq_comp" ∧ method = Perrys)
  then Some Perrys_liquid_heat_capacity
  else if decide (prop = KStr "enth_mol_ig_comp" ∧ method = RPP)
  then Some RPP_ideal_gas_heat_capacity
  else if decide (prop = KStr "pressure_sat_comp" ∧ method = NIST)
  then Some NIST_saturation_pressure
  else None.

(** Modelled from the spec: the coefficient group of [parameter_data] that
    each correlation form reads.  The correlation modules [Perrys], [RPP] and
    [NIST] are imported from the modelling framework and are not defined in
    the file. *)
Definition coeff_entry (c : corr_form) : string :=
  match c with
  | Perrys_liquid_density => "dens_mol_liq_comp_coeff"
  | Perrys_liquid_heat_capacity => "cp_mol_liq_comp_coeff"
  | RPP_ideal_gas_heat_capacity => "cp_mol_ig_comp_coeff"
  | NIST_saturation_pressure => "pressure_sat_comp_coeff"
  end.

(** Modelled from the spec: the coefficient keys each correlation form
    requires.  The forms are the framework's, missing from the file; the spec
    says that every form has a fixed set of required keys and that the
    four-term ideal-gas heat-capacity polynomial needs all four of its
    coefficients.  The liquid density form takes four numbered coefficients,
    the liquid heat-capacity polynomial five, the saturation pressure form
    the three of an Antoine equation. *)
Definition required_keys (c : corr_form) : list string :=
  match c with
  | Perrys_liquid_density => ["1"; "2"; "3"; "4"]
  | Perrys_liquid_heat_capacity => ["1"; "2"; "3"; "4"; "5"]
  | RPP_ideal_gas_heat_capacity => ["A"; "B"; "C"; "D"]
  | NIST_saturation_pressure => ["A"; "B"; "C"]
  end.

(** Modelled from the spec: the phase category (liquid or vapor) of a phase
    class.  The classes and the [PhaseType] enumeration belong to the
    modelling framework; of the objects the table stores, [VaporPhase] is the
    one class of type [PT.vaporPhase]. *)
Definition phase_has_type (cls pt : pyobj) : bool :=
  match cls, pt with
  | VaporPhase, PT_vaporPhase => true
  | _, _ => false
  end.

(** The property names under which a species entry refers to a correlation:
    liquid density, liquid enthalpy, ideal-gas enthalpy, saturation
    pressure. *)
Definition correlation_properties : list string :=
  ["dens_mol_liq_comp"; "enth_mol_liq_comp"; "enth_mol_ig_comp";
   "pressure_sat_comp"].

Definition has_all_correlations (sp : pyval) : Prop :=
  ∀ prop : string, prop ∈ correlation_properties →
    ∃ method, sp.[KStr prop] = Some (PObj method).

(** The top-level keys the consuming framework expects. *)
Definition top_level_keys : list string :=
  ["components"; "phases"; "base_units"; "state_definition"; "state_bounds";
   "pressure_ref"; "temperature_ref"; "phases_in_equilibrium";
   "phase_equilibrium_state"].

(** The unit of the [n]-th coefficient of the ideal-gas heat-capacity
    polynomial, J/mol/K^n. *)
Definition cp_ig_unit (n : Z) : uexpr :=
  (pyunits.J / pyunits.mol / pyunits.K ** n)%U.

(** The entries of a dictionary reached by a chain of subscripts; empty when
    the chain fails or does not end in a dictionary. *)
Definition entries_of (o : option pyval) : list (pykey * pyval) :=
  default [] (o ≫= items).

(** The entry of a species, [configuration["components"][name]]. *)
Definition species (name : string) : pyval :=
  default PNone (configuration.["components"].[KStr name]).

(** A table entry [(value, units)]: the number and its units, [None] for an
    entry written with units [None]. *)
Definition quantity (v : pyval) : option (Q * option uexpr) :=
  match v with
  | PTuple [x; PUnits u] => q ← num_value x; Some (q, Some u)
  | PTuple [x; PNone] => q ← num_value x; Some (q, None)
  | _ => None
  end.

(** The units of the [n]-th coefficient of the liquid heat-capacity
    polynomial, as the table writes them. *)
Definition cp_liq_unit (n : Z) : uexpr :=
  (pyunits.J * pyunits.kmol ** (-1) * pyunits.K ** (- n))%U.

(** The coefficient keys of the two heat-capacity polynomials with the power
    of the temperature each coefficient multiplies, counted from one. *)
Definition cp_ig_terms : list (string * Z) :=
  [("A", 1); ("B", 2); ("C", 3); ("D", 4)]%Z.

Definition cp_liq_terms : list (string * Z) :=
  [("1", 1); ("2", 2); ("3", 3); ("4", 4); ("5", 5)]%Z.

(** ** Dictionaries: lookups, updates, keys *)

Section dict.
Implicit Types (its : list (pykey * pyval)) (k : pykey) (v : pyval).

Lemma dict_get_elem_of its k v : dict_get its k = Some v → (k, v) ∈ its.
Proof.
  induction its as [|[k' v'] its IH]; simpl; [done|].
  case_decide as Hk.
  - intros [= ->]. subst k'. apply list_elem_of_here.
  - intros H. apply list_elem_of_further, IH, H.
Qed.

Lemma dict_get_is_Some its k : is_Some (dict_get its k) ↔ k ∈ its.*1.
Proof.
  induction its as [|[k' v'] its IH]; simpl.
  - rewrite elem_of_nil. split; [by intros [? ?] | done].
  - rewrite elem_of_cons. case_decide as Hk.
    + split; [by left | eauto].
    + rewrite IH. split; [by right | by intros [-> | ?]].
Qed.

Lemma dict_get_None its k : dict_get its k = None ↔ k ∉ its.*1.
Proof. by rewrite <-dict_get_is_Some, eq_None_not_Some. Qed.

Lemma dict_get_set_eq its k v : dict_get (dict_set its k v) k = Some v.
Proof.
  induction its as [|[k' v'] its IH]; simpl.
  - by rewrite decide_True.
  - case_decide as Hk; simpl; [by rewrite decide_True | by rewrite decide_False].
Qed.

Lemma dict_get_set_ne its k k' v :
  k ≠ k' → dict_get (dict_set its k v) k' = dict_get its k'.
Proof.
  intros Hne. induction its as [|[k0 v0] its IH]; simpl.
  - by rewrite decide_False.
  - case_decide as Hk; simpl.
    + subst k0. by rewrite !decide_False.
    + case_decide; [done | apply IH].
Qed.

Lemma dict_set_keys its k v :
  (dict_set its k v).*1 = if decide (k ∈ its.*1) then its.*1 else (its.*1 ++ [k])%list.
Proof.
  induction its as [|[k0 v0] its IH].
  - by destruct (decide (k ∈ [].*1)) as [?%elem_of_nil|].
  - cbn [dict_set]. destruct (decide (k0 = k)) as [-> | Hk].
    + rewrite decide_True; [done | apply list_elem_of_here].
    + rewrite !fmap_cons, IH. simpl.
      destruct (decide (k ∈ its.*1)) as [Hin | Hin].
      * rewrite decide_True; [done | by apply list_elem_of_further].
      * rewrite decide_False; [done |].
        rewrite elem_of_cons. by intros [-> | ?].
Qed.

(** Setting a key keeps the keys distinct. *)
Lemma dict_set_NoDup its k v : NoDup its.*1 → NoDup (dict_set its k v).*1.
Proof.
  intros Hnd. rewrite dict_set_keys. case_decide as Hin; [done|].
  apply NoDup_app. split_and!; [done | | apply NoDup_singleton].
  intros x Hx ->%list_elem_of_singleton. done.
Qed.

(** A dictionary display has distinct keys, whatever its items. *)
Lemma py_dict_NoDup l : ∃ its, py_dict l = PDict its ∧ NoDup its.*1.
Proof.
  unfold py_dict. eexists; split; [done|].
  assert (∀ acc, NoDup acc.*1 →
    NoDup (foldl (λ d kv, dict_set d kv.1 kv.2) acc l).*1) as Hgen.
  { induction l as [|[k v] l IH]; intros acc Hacc; simpl; [done|].
    by apply IH, dict_set_NoDup. }
  apply Hgen, NoDup_nil_2.
Qed.

(** The last item of a display with a given key is the one that is read. *)
Lemma py_dict_last l k v : (py_dict (l ++ [(k, v)])%list).[k] = Some v.
Proof.
  unfold py_dict, subscript, subscript_val, getitem.
  rewrite foldl_app. simpl. apply dict_get_set_eq.
Qed.

Lemma getitem_elem_of (d : pyval) k v :
  d.[k] = Some v → (k, v) ∈ entries_of (Some d).
Proof. destruct d; try done. apply dict_get_elem_of. Qed.

Lemma subscript_elem_of (o : option pyval) k v :
  o.[k] = Some v → (k, v) ∈ entries_of o.
Proof. destruct o as [d|]; [apply getitem_elem_of | done]. Qed.

Lemma subscript_is_Some (o : option pyval) k l :
  o ≫= keys = Some l → is_Some (o.[k]) ↔ k ∈ l.
Proof.
  destruct o as [[]|]; try done. simpl. intros [= <-].
  apply dict_get_is_Some.
Qed.

Lemma bind_key_set (o : option pyval) l :
  o ≫= keys = Some l → o ≫= key_set = Some (list_to_set l).
Proof.
  destruct o as [d|]; [|done]. simpl. unfold key_set. by intros ->.
Qed.

Lemma key_set_elem_of (o : option pyval) k ks :
  o ≫= key_set = Some ks → k ∈ ks ↔ is_Some (o.[k]).
Proof.
  destruct o as [[]|]; try done. simpl. unfold key_set. simpl.
  intros [= <-]. rewrite elem_of_list_to_set. symmetry.
  apply dict_get_is_Some.
Qed.
End dict.

(** Chains of subscripts taken apart. *)
Lemma subscript_bind_inv {A} (o : option pyval) (k : pykey)
    (f : pyval → option A) (r : A) :
  o.[k] ≫= f = Some r → ∃ v, o.[k] = Some v ∧ f v = Some r.
Proof. destruct (o.[k]) as [v|]; [eauto | done]. Qed.

Lemma subscript_opt_inv (o : option pyval) (k : pykey) (v : pyval) :
  o.[k] = Some v → ∃ d, o = Some d ∧ d.[k] = Some v.
Proof. destruct o as [d|]; [eauto | done]. Qed.

(** Case analysis on the entry a successful lookup in a closed dictionary can
    have returned. *)
Ltac entries H :=
  first [ apply subscript_elem_of in H | apply getitem_elem_of in H ];
  vm_compute in H;
  repeat (apply elem_of_cons in H as [H | H]; [ simplify_eq | ]);
  try (by apply elem_of_nil in H).

(** The unit operators associate as in Python: [/] and [*] to the left, [**]
    binding tighter. *)
Lemma unit_operators_parse :
  (pyunits.J / pyunits.mol / pyunits.K ** 2)%U =
    UDiv (UDiv (UAtom pyunits.J) (UAtom pyunits.mol)) (UPow (UAtom pyunits.K) 2) ∧
  (pyunits.J * pyunits.kmol ** (-1) * pyunits.K ** (-2))%U =
    UMul (UMul (UAtom pyunits.J) (UPow (UAtom pyunits.kmol) (-1)))
         (UPow (UAtom pyunits.K) (-2)).
Proof. done. Qed.

(** Units compare by their exponents. *)
Lemma same_unitb_sound u v : same_unitb u v = true → same_unit u v.
Proof.
  unfold same_unitb, all_names. simpl. intros H n.
  repeat (apply andb_prop in H as [?%Z.eqb_eq H]).
  by destruct n.
Qed.

(** ** The benzene entry *)

(** C1: the ideal-gas heat-capacity polynomial of benzene has exactly the
    coefficients A = -3.392E1, B = 4.739E-1, C = -3.017E-4, D = 7.130E-8, the
    n-th of them in J/mol/K^n, and the critical pressure of benzene is
    48.9e5 Pa. *)
Theorem benzene_cp_ig_and_pressure_crit :
  ∃ pd cp,
    configuration.["components"].["benzene"].["parameter_data"] = Some pd ∧
    pd.["cp_mol_ig_comp_coeff"] = Some cp ∧
    keys cp = Some [KStr "A"; KStr "B"; KStr "C"; KStr "D"] ∧
    cp.["A"] = Some (PTuple [PFloat (-3.392E1);
                             PUnits (pyunits.J / pyunits.mol / pyunits.K)]) ∧
    cp.["B"] = Some (PTuple [PFloat 4.739E-1;
                             PUnits (pyunits.J / pyunits.mol / pyunits.K ** 2)]) ∧
    cp.["C"] = Some (PTuple [PFloat (-3.017E-4);
                             PUnits (pyunits.J / pyunits.mol / pyunits.K ** 3)]) ∧
    cp.["D"] = Some (PTuple [PFloat 7.130E-8;
                             PUnits (pyunits.J / pyunits.mol / pyunits.K ** 4)]) ∧
    Forall2 (λ k n, ∃ x u, cp.[KStr k] = Some (PTuple [PFloat x; PUnits u]) ∧
                           same_unit u (cp_ig_unit n))
            ["A"; "B"; "C"; "D"] [1; 2; 3; 4]%Z ∧
    pd.["pressure_crit"] = Some (PTuple [PFloat 48.9e5; PUnits pyunits.Pa]).
Proof.
  do 2 eexists. split; [by vm_compute|]. split; [by vm_compute|].
  split_and!; try by vm_compute.
  repeat constructor; do 2 eexists; (split; [by vm_compute|]);
    by apply same_unitb_sound.
Qed.

(** The critical pressure of benzene is the integer 4890000: the literal
    [48.9e5] is a binary64 without rounding error. *)
Lemma benzene_pressure_crit_value :
  ∃ q, num_value (PFloat 48.9e5) = Some q ∧ (q == 4890000)%Q.
Proof. eexists. split; [by vm_compute|]. by vm_compute. Qed.

(** ** The shape of the table *)

(** C6: the configuration is a mapping with a top-level key for each of
    components, phases, base units, state definition, state bounds, reference
    temperature, reference pressure and the equilibrium-phase declarations. *)
Theorem top_level_schema :
  (∃ its, configuration = PDict its ∧ NoDup its.*1) ∧
  Forall (λ k : string, is_Some (configuration.[KStr k])) top_level_keys ∧
  keys configuration =
    Some ((KStr <$> top_level_keys) ++ [KStr "bubble_dew_method"])%list.
Proof.
  split; [apply py_dict_NoDup|].
  split; [|by vm_compute].
  unfold top_level_keys.
  repeat (apply Forall_cons; split; [eexists; by vm_compute|]).
  apply Forall_nil_2.
Qed.

(** C7: the components mapping has entries for benzene, toluene, hydrogen
    and methane, and for nothing else. *)
Theorem components_are_the_four_species :
  configuration.["components"] ≫= keys =
    Some [KStr "benzene"; KStr "toluene"; KStr "hydrogen"; KStr "methane"] ∧
  configuration.["components"] ≫= key_set =
    Some {[ KStr "benzene"; KStr "toluene"; KStr "hydrogen"; KStr "methane" ]}.
Proof.
  assert (configuration.["components"] ≫= keys =
    Some [KStr "benzene"; KStr "toluene"; KStr "hydrogen"; KStr "methane"])
    as Hk by by vm_compute.
  split; [done|].
  rewrite (bind_key_set _ _ Hk). f_equal; set_solver.
Qed.

(** A name has an entry exactly when it is one of the four. *)
Lemma component_lookup (name : pykey) :
  is_Some (configuration.["components"].[name]) ↔
  name ∈ [KStr "benzene"; KStr "toluene"; KStr "hydrogen"; KStr "methane"].
Proof. apply subscript_is_Some. by vm_compute. Qed.

(** ** Correlation forms and their coefficients *)

(** C2: for every species entry and every correlation form it declares, the
    coefficient keys supplied in [parameter_data] are exactly the keys the
    form requires. *)
Theorem coefficient_keys_match
    (name prop : pykey) (sp : pyval) (method : pyobj) (c : corr_form) :
  configuration.["components"].[name] = Some sp →
  sp.[prop] = Some (PObj method) →
  declared_form prop method = Some c →
  sp.["parameter_data"].[coeff_entry c] ≫= key_set =
    Some (list_to_set (KStr <$> required_keys c)).
Proof.
  intros Hsp Hprop Hform.
  entries Hsp; entries Hprop; vm_compute in Hform; simplify_eq;
    apply bind_key_set; by vm_compute.
Qed.

Lemma coefficient_keys_match_witness :
  configuration.["components"].["benzene"].["parameter_data"]
    .[coeff_entry RPP_ideal_gas_heat_capacity] ≫= key_set =
    Some (list_to_set (KStr <$> required_keys RPP_ideal_gas_heat_capacity)).
Proof.
  apply (coefficient_keys_match "benzene" "enth_mol_ig_comp"
           (species "benzene") RPP RPP_ideal_gas_heat_capacity);
    vm_compute; reflexivity.
Defined.

(** X14: under each of the four correlation properties a species entry
    refers to one module only, the same in every entry: [Perrys] for the
    liquid density and the liquid enthalpy, [RPP] for the ideal-gas enthalpy,
    [NIST] for the saturation pressure. *)
Lemma declared_forms_known (name : pykey) (sp : pyval) (prop : string) (v : pyval) :
  configuration.["components"].[name] = Some sp →
  prop ∈ correlation_properties →
  sp.[KStr prop] = Some v →
  ∃ method c, v = PObj method ∧ declared_form prop method = Some c.
Proof.
  intros Hsp Hin Hprop. unfold correlation_properties in Hin.
  repeat (apply elem_of_cons in Hin as [-> | Hin]);
    try (by apply elem_of_nil in Hin);
    entries Hsp; vm_compute in Hprop; simplify_eq; do 2 eexists; by vm_compute.
Qed.

(** X15: every coefficient group of a species entry belongs to a correlation
    form the entry declares: no group is supplied without its correlation. *)
Lemma coefficient_groups_declared (name group : pykey) (sp : pyval) its :
  configuration.["components"].[name] = Some sp →
  sp.["parameter_data"].[group] = Some (PDict its) →
  ∃ prop method c,
    sp.[prop] = Some (PObj method) ∧ declared_form prop method = Some c ∧
    group = KStr (coeff_entry c).
Proof.
  intros Hsp Hgroup.
  entries Hsp; entries Hgroup;
    first [ by exists (KStr "dens_mol_liq_comp"), Perrys, Perrys_liquid_density
          | by exists (KStr "enth_mol_liq_comp"), Perrys, Perrys_liquid_heat_capacity
          | by exists (KStr "enth_mol_ig_comp"), RPP, RPP_ideal_gas_heat_capacity
          | by exists (KStr "pressure_sat_comp"), NIST, NIST_saturation_pressure ].
Qed.

(** X16: independently of the required sets, two species that declare the
    same form supply the same coefficient keys, in the same order. *)
Lemma coefficient_keys_consistent
    (n1 n2 prop : pykey) (sp1 sp2 : pyval) (method : pyobj) (c : corr_form) :
  configuration.["components"].[n1] = Some sp1 →
  configuration.["components"].[n2] = Some sp2 →
  sp1.[prop] = Some (PObj method) →
  sp2.[prop] = Some (PObj method) →
  declared_form prop method = Some c →
  sp1.["parameter_data"].[coeff_entry c] ≫= keys =
  sp2.["parameter_data"].[coeff_entry c] ≫= keys.
Proof.
  intros H1 H2 Hp1 Hp2 Hform.
  entries H1; entries H2; entries Hp1;
    try (vm_compute in Hp2; simplify_eq);
    try (vm_compute in Hform; simplify_eq);
    by vm_compute.
Qed.

(** The zero coefficients of the liquid heat-capacity polynomial are written
    out, as the integer 0 with its unit. *)
Lemma zero_coefficients_supplied (name : pykey) (sp : pyval) (k : string) :
  configuration.["components"].[name] = Some sp →
  sp.["dens_mol_liq_comp"] = Some (PObj Perrys) →
  k ∈ ["4"; "5"] →
  ∃ u, sp.["parameter_data"].["cp_mol_liq_comp_coeff"].[KStr k] =
         Some (PTuple [PInt 0; PUnits u]).
Proof.
  intros Hsp Hd Hk.
  repeat (apply elem_of_cons in Hk as [-> | Hk]);
    try (by apply elem_of_nil in Hk);
    entries Hsp; vm_compute in Hd; simplify_eq; eexists; by vm_compute.
Qed.

(** ** Phases *)

(** C3: both phase names of every pair in [phases_in_equilibrium], and of
    every pair that is a key of [phase_equilibrium_state], are keys of the
    phases registry. *)
Theorem equilibrium_phases_declared :
  (∀ pairs pair,
     configuration.["phases_in_equilibrium"] ≫= elements_of = Some pairs →
     pair ∈ pairs →
     ∃ p1 p2 : string, pair = PTuple [PStr p1; PStr p2] ∧
       is_Some (configuration.["phases"].[KStr p1]) ∧
       is_Some (configuration.["phases"].[KStr p2])) ∧
  (∀ k v,
     configuration.["phase_equilibrium_state"].[k] = Some v →
     ∃ p1 p2 : string, k = KTuple [p1; p2] ∧
       is_Some (configuration.["phases"].[KStr p1]) ∧
       is_Some (configuration.["phases"].[KStr p2])) ∧
  configuration.["phases_in_equilibrium"] =
    Some (PList [PTuple [PStr "Vap"; PStr "Liq"]]) ∧
  configuration.["phase_equilibrium_state"] ≫= keys =
    Some [KTuple ["Vap"; "Liq"]] ∧
  configuration.["phases"] ≫= keys = Some [KStr "Liq"; KStr "Vap"].
Proof.
  split_and!; try by vm_compute.
  - intros pairs pair Hpairs Hin. vm_compute in Hpairs. simplify_eq.
    apply list_elem_of_singleton in Hin as ->.
    exists "Vap", "Liq". split_and!; [done | eexists; by vm_compute ..].
  - intros k v Hk. entries Hk.
    exists "Vap", "Liq". split_and!; [done | eexists; by vm_compute ..].
Qed.

Lemma equilibrium_phases_declared_witness :
  ∃ p1 p2 : string, PTuple [PStr "Vap"; PStr "Liq"] = PTuple [PStr p1; PStr p2] ∧
    is_Some (configuration.["phases"].[KStr p1]) ∧
    is_Some (configuration.["phases"].[KStr p2]).
Proof.
  destruct equilibrium_phases_declared as [H _].
  apply (H [PTuple [PStr "Vap"; PStr "Liq"]]).
  - vm_compute. reflexivity.
  - apply list_elem_of_here.
Defined.

(** The pairs under which a species entry gives its equilibrium form name
    declared phases as well. *)
Lemma equilibrium_form_phases_declared (name k : pykey) (sp v : pyval) :
  configuration.["components"].[name] = Some sp →
  sp.["phase_equilibrium_form"].[k] = Some v →
  ∃ p1 p2 : string, k = KTuple [p1; p2] ∧
    is_Some (configuration.["phases"].[KStr p1]) ∧
    is_Some (configuration.["phases"].[KStr p2]).
Proof.
  intros Hsp Hk.
  entries Hsp; entries Hk;
    exists "Vap", "Liq"; (split_and!; [done | eexists; by vm_compute ..]).
Qed.

(** C4: a species entry that restricts its phases by [valid_phase_types]
    names a phase type for which the registry declares a phase; hydrogen and
    methane are restricted to the vapor phase type, and ['Vap'], of class
    [VaporPhase], is declared. *)
Theorem valid_phase_types_declared :
  configuration.["components"].["hydrogen"].["valid_phase_types"] =
    Some (PObj PT_vaporPhase) ∧
  configuration.["components"].["methane"].["valid_phase_types"] =
    Some (PObj PT_vaporPhase) ∧
  configuration.["phases"].["Vap"].["type"] = Some (PObj VaporPhase) ∧
  (∀ (name : pykey) (sp v : pyval),
     configuration.["components"].[name] = Some sp →
     sp.["valid_phase_types"] = Some v →
     (name = KStr "hydrogen" ∨ name = KStr "methane") ∧
     ∃ (pt : pyobj) (p : string) (cls : pyobj),
       v = PObj pt ∧
       configuration.["phases"].[KStr p].["type"] = Some (PObj cls) ∧
       phase_has_type cls pt = true).
Proof.
  split_and!; try by vm_compute.
  intros name sp v Hsp Hv.
  entries Hsp; vm_compute in Hv; simplify_eq;
    (split; [by auto|]); by exists PT_vaporPhase, "Vap", VaporPhase.
Qed.

Lemma valid_phase_types_declared_witness :
  (KStr "methane" = KStr "hydrogen" ∨ KStr "methane" = KStr "methane") ∧
  ∃ (pt : pyobj) (p : string) (cls : pyobj),
    PObj PT_vaporPhase = PObj pt ∧
    configuration.["phases"].[KStr p].["type"] = Some (PObj cls) ∧
    phase_has_type cls pt = true.
Proof.
  destruct valid_phase_types_declared as (_ & _ & _ & H).
  apply (H "methane" (species "methane")); vm_compute; reflexivity.
Defined.

(** ** Correlation references of the species *)

(** The hydrogen entry refers to no liquid-density correlation, so not every
    species entry refers to all four correlations. *)
Lemma hydrogen_lacks_liquid_correlations :
  ∃ sp, configuration.["components"].["hydrogen"] = Some sp ∧
        sp.["dens_mol_liq_comp"] = None ∧
        ¬ has_all_correlations sp.
Proof.
  eexists. split; [by vm_compute|]. split; [by vm_compute|].
  intros Hall. destruct (Hall "dens_mol_liq_comp") as [method Hm].
  - apply list_elem_of_here.
  - vm_compute in Hm. discriminate Hm.
Qed.

(** C5, as the table has it: every species entry refers to an ideal-gas
    enthalpy correlation; an entry without a [valid_phase_types] restriction
    refers to all four correlations; an entry with the restriction refers to
    the ideal-gas enthalpy correlation only. *)
Theorem species_correlations (name : pykey) (sp : pyval) :
  configuration.["components"].[name] = Some sp →
  (∃ method, sp.["enth_mol_ig_comp"] = Some (PObj method)) ∧
  (sp.["valid_phase_types"] = None → has_all_correlations sp) ∧
  (is_Some (sp.["valid_phase_types"]) →
   ∀ prop : string, prop ∈ correlation_properties →
     is_Some (sp.[KStr prop]) → prop = "enth_mol_ig_comp").
Proof.
  intros Hsp. entries Hsp.
  all: split; [eexists; by vm_compute|].
  all: split.
  all: try (intros Hnone; by vm_compute in Hnone).
  all: try (intros [? Hsome]; by vm_compute in Hsome).
  all: intros _ prop Hin; unfold correlation_properties in Hin.
  all: repeat (apply elem_of_cons in Hin as [-> | Hin]);
         try (by apply elem_of_nil in Hin).
  all: try (eexists; by vm_compute).
  all: try done.
  all: intros [? Hsome]; by vm_compute in Hsome.
Qed.

Lemma species_correlations_witness :
  (∃ method, (species "hydrogen").["enth_mol_ig_comp"] = Some (PObj method)) ∧
  ((species "hydrogen").["valid_phase_types"] = None →
   has_all_correlations (species "hydrogen")) ∧
  (is_Some ((species "hydrogen").["valid_phase_types"]) →
   ∀ prop : string, prop ∈ correlation_properties →
     is_Some ((species "hydrogen").[KStr prop]) → prop = "enth_mol_ig_comp").
Proof.
  apply (species_correlations "hydrogen" (species "hydrogen")).
  vm_compute. reflexivity.
Defined.

(** Which entries carry the restriction. *)
Lemma restricted_species (name : pykey) :
  is_Some (configuration.["components"].[name].["valid_phase_types"]) ↔
  name ∈ [KStr "hydrogen"; KStr "methane"].
Proof.
  split.
  - intros [v Hv].
    destruct (configuration.["components"].[name]) as [sp|] eqn:Hsp; [|done].
    entries Hsp; vm_compute in Hv; simplify_eq; set_solver.
  - intros Hin. repeat (apply elem_of_cons in Hin as [-> | Hin]);
      [eexists; by vm_compute .. | by apply elem_of_nil in Hin].
Qed.

(** ** State bounds *)

(** C10: every entry of [state_bounds] is a tuple (lower, nominal, upper,
    unit) with lower <= nominal <= upper, and the lower bounds of temperature
    and pressure are strictly positive. *)
Theorem state_bounds_ordered (var : pykey) (entry : pyval) :
  configuration.["state_bounds"].[var] = Some entry →
  var ∈ [KStr "flow_mol_comp"; KStr "temperature"; KStr "pressure"] ∧
  ∃ lo nom hi u,
    entry = PTuple [lo; nom; hi; PUnits u] ∧
    py_le lo nom = Some true ∧
    py_le nom hi = Some true ∧
    (var = KStr "temperature" ∨ var = KStr "pressure" →
     py_lt (PInt 0) lo = Some true).
Proof.
  intros Hvar. entries Hvar.
  all: split; [set_solver|].
  all: do 4 eexists; split; [reflexivity|].
  all: split_and!; try by vm_compute.
  intros [[=] | [=]].
Qed.

Lemma state_bounds_ordered_witness :
  KStr "temperature" ∈ [KStr "flow_mol_comp"; KStr "temperature"; KStr "pressure"] ∧
  ∃ lo nom hi u,
    PTuple [PFloat 273.15; PInt 300; PInt 1000; PUnits pyunits.K] =
      PTuple [lo; nom; hi; PUnits u] ∧
    py_le lo nom = Some true ∧
    py_le nom hi = Some true ∧
    (KStr "temperature" = KStr "temperature" ∨ KStr "temperature" = KStr "pressure" →
     py_lt (PInt 0) lo = Some true).
Proof.
  apply (state_bounds_ordered "temperature"). vm_compute. reflexivity.
Defined.

(** The state variables that are bounded. *)
Lemma state_bounds_keys :
  configuration.["state_bounds"] ≫= keys =
    Some [KStr "flow_mol_comp"; KStr "temperature"; KStr "pressure"].
Proof. by vm_compute. Qed.

(** The lower bound of the component flow is zero, not positive. *)
Lemma flow_lower_bound_zero :
  ∃ lo, (configuration.["state_bounds"].["flow_mol_comp"] ≫= λ t, index t 0) = Some lo ∧
        py_le lo (PInt 0) = Some true ∧ py_lt (PInt 0) lo = Some false.
Proof. eexists. split_and!; by vm_compute. Qed.

(** ** Further invariants of the table *)

(** X1: every species entry is a [Component] and gives its molecular weight
    in kg/mol, its critical pressure in Pa and its critical temperature in K,
    all three strictly positive. *)
Theorem species_critical_data (name : pykey) (sp : pyval) :
  configuration.["components"].[name] = Some sp →
  sp.["type"] = Some (PObj Component) ∧
  ∃ mw pc tc : Q,
    sp.["parameter_data"].["mw"] ≫= quantity =
      Some (mw, Some (pyunits.kg / pyunits.mol)%U) ∧
    sp.["parameter_data"].["pressure_crit"] ≫= quantity =
      Some (pc, Some (UAtom pyunits.Pa)) ∧
    sp.["parameter_data"].["temperature_crit"] ≫= quantity =
      Some (tc, Some (UAtom pyunits.K)) ∧
    (0 < mw)%Q ∧ (0 < pc)%Q ∧ (0 < tc)%Q.
Proof.
  intros Hsp. entries Hsp.
  all: split; [by vm_compute|].
  all: do 3 eexists; split_and!; by vm_compute.
Qed.

Lemma species_critical_data_witness :
  (species "toluene").["type"] = Some (PObj Component) ∧
  ∃ mw pc tc : Q,
    (species "toluene").["parameter_data"].["mw"] ≫= quantity =
      Some (mw, Some (pyunits.kg / pyunits.mol)%U) ∧
    (species "toluene").["parameter_data"].["pressure_crit"] ≫= quantity =
      Some (pc, Some (UAtom pyunits.Pa)) ∧
    (species "toluene").["parameter_data"].["temperature_crit"] ≫= quantity =
      Some (tc, Some (UAtom pyunits.K)) ∧
    (0 < mw)%Q ∧ (0 < pc)%Q ∧ (0 < tc)%Q.
Proof.
  apply (species_critical_data "toluene" (species "toluene")).
  vm_compute. reflexivity.
Defined.



(** X3: the species agree on the units of their parameters: a parameter that
    two species both give as a pair has the same units in both. *)
Theorem parameter_units_agree
    (n1 n2 param : pykey) (sp1 sp2 : pyval) (q1 q2 : Q) (u1 u2 : option uexpr) :
  configuration.["components"].[n1] = Some sp1 →
  configuration.["components"].[n2] = Some sp2 →
  sp1.["parameter_data"].[param] ≫= quantity = Some (q1, u1) →
  sp2.["parameter_data"].[param] ≫= quantity = Some (q2, u2) →
  u1 = u2.
Proof.
  intros H1 H2 (v1 & Hv1 & Hq1)%subscript_bind_inv Hq2.
  entries H1; entries Hv1; vm_compute in Hq1; simplify_eq;
    entries H2; vm_compute in Hq2; by simplify_eq.
Qed.

Lemma parameter_units_agree_witness :
  Some (pyunits.J / pyunits.mol)%U = Some (pyunits.J / pyunits.mol)%U.
Proof.
  eapply (parameter_units_agree "hydrogen" "methane" "enth_mol_form_vap_comp_ref"
            (species "hydrogen") (species "methane"));
    vm_compute; reflexivity.
Defined.

(** X4: the species agree on the units of their coefficients: a coefficient
    that two species both give, under the same group and the same key, has
    the same units in both, or no units in both. *)
Theorem coefficient_units_agree
    (n1 n2 group k : pykey) (sp1 sp2 : pyval) (q1 q2 : Q) (u1 u2 : option uexpr) :
  configuration.["components"].[n1] = Some sp1 →
  configuration.["components"].[n2] = Some sp2 →
  sp1.["parameter_data"].[group].[k] ≫= quantity = Some (q1, u1) →
  sp2.["parameter_data"].[group].[k] ≫= quantity = Some (q2, u2) →
  u1 = u2.
Proof.
  intros H1 H2 (w1 & Hw1 & Hq1)%subscript_bind_inv Hq2.
  apply subscript_opt_inv in Hw1 as (v1 & Hv1 & Hw1).
  entries H1; entries Hv1; try (by vm_compute in Hw1);
    entries Hw1; vm_compute in Hq1; simplify_eq;
    entries H2; vm_compute in Hq2; by simplify_eq.
Qed.

Lemma coefficient_units_agree_witness :
  Some (pyunits.J / pyunits.mol / pyunits.K ** 2)%U =
  Some (pyunits.J / pyunits.mol / pyunits.K ** 2)%U.
Proof.
  eapply (coefficient_units_agree "benzene" "methane" "cp_mol_ig_comp_coeff" "B"
            (species "benzene") (species "methane"));
    vm_compute; reflexivity.
Defined.

(** X5: in every species entry the coefficients A, B, C, D of the ideal-gas
    heat-capacity polynomial are in J/mol/K, J/mol/K^2, J/mol/K^3 and
    J/mol/K^4. *)
Theorem cp_ig_coefficient_units (name : pykey) (sp : pyval) (k : string) (n : Z) :
  configuration.["components"].[name] = Some sp →
  (k, n) ∈ cp_ig_terms →
  ∃ q u, sp.["parameter_data"].["cp_mol_ig_comp_coeff"].[KStr k] ≫= quantity =
           Some (q, Some u) ∧
         same_unit u (cp_ig_unit n).
Proof.
  intros Hsp Hk. unfold cp_ig_terms in Hk.
  repeat (apply elem_of_cons in Hk as [[= -> ->] | Hk]);
    try (by apply elem_of_nil in Hk);
    entries Hsp; do 2 eexists; (split; [by vm_compute|]);
    by apply same_unitb_sound.
Qed.

Lemma cp_ig_coefficient_units_witness :
  ∃ q u, (species "methane").["parameter_data"].["cp_mol_ig_comp_coeff"].[KStr "C"]
           ≫= quantity = Some (q, Some u) ∧
         same_unit u (cp_ig_unit 3).
Proof.
  apply (cp_ig_coefficient_units "methane" (species "methane") "C" 3).
  - vm_compute. reflexivity.
  - unfold cp_ig_terms. do 2 apply list_elem_of_further. apply list_elem_of_here.
Defined.

(** X6: in every species entry that gives a liquid heat-capacity polynomial,
    its coefficients 1 to 5 are written in J*kmol^-1*K^-n for n = 1 to 5. *)
Theorem cp_liq_coefficient_units
    (name : pykey) (sp group : pyval) (k : string) (n : Z) :
  configuration.["components"].[name] = Some sp →
  sp.["parameter_data"].["cp_mol_liq_comp_coeff"] = Some group →
  (k, n) ∈ cp_liq_terms →
  ∃ q, group.[KStr k] ≫= quantity = Some (q, Some (cp_liq_unit n)).
Proof.
  intros Hsp Hgroup Hk. unfold cp_liq_terms in Hk.
  repeat (apply elem_of_cons in Hk as [[= -> ->] | Hk]);
    try (by apply elem_of_nil in Hk);
    entries Hsp; vm_compute in Hgroup; simplify_eq; eexists; by vm_compute.
Qed.

Lemma cp_liq_coefficient_units_witness :
  ∃ q, (default PNone
          ((species "toluene").["parameter_data"].["cp_mol_liq_comp_coeff"])).[KStr "4"]
         ≫= quantity = Some (q, Some (cp_liq_unit 4)).
Proof.
  apply (cp_liq_coefficient_units "toluene" (species "toluene") _ "4" 4).
  - vm_compute. reflexivity.
  - vm_compute. reflexivity.
  - unfold cp_liq_terms. do 3 apply list_elem_of_further. apply list_elem_of_here.
Defined.

(** X7: for every species entry the following go together: the entry has no
    [valid_phase_types] restriction; it gives a phase-equilibrium form; it
    refers to a saturation-pressure correlation; it gives a liquid enthalpy
    of formation. *)
Theorem condensable_species (name : pykey) (sp : pyval) :
  configuration.["components"].[name] = Some sp →
  (sp.["valid_phase_types"] = None ↔ is_Some (sp.["phase_equilibrium_form"])) ∧
  (sp.["valid_phase_types"] = None ↔ is_Some (sp.["pressure_sat_comp"])) ∧
  (sp.["valid_phase_types"] = None ↔
   is_Some (sp.["parameter_data"].["enth_mol_form_liq_comp_ref"])).
Proof.
  intros Hsp. entries Hsp.
  all: split_and!; (split; [intros H | intros [? H]]);
         first [ by vm_compute in H | eexists; by vm_compute | by vm_compute ].
Qed.

Lemma condensable_species_witness :
  ((species "hydrogen").["valid_phase_types"] = None ↔
   is_Some ((species "hydrogen").["phase_equilibrium_form"])) ∧
  ((species "hydrogen").["valid_phase_types"] = None ↔
   is_Some ((species "hydrogen").["pressure_sat_comp"])) ∧
  ((species "hydrogen").["valid_phase_types"] = None ↔
   is_Some ((species "hydrogen").["parameter_data"].["enth_mol_form_liq_comp_ref"])).
Proof.
  apply (condensable_species "hydrogen" (species "hydrogen")).
  vm_compute. reflexivity.
Defined.

(** X8: a species entry gives a phase-equilibrium form only for pairs of
    phases that are declared in [phases_in_equilibrium] and have a state in
    [phase_equilibrium_state], and the form is always [fugacity]. *)
Theorem equilibrium_forms_match_declarations (name k : pykey) (sp v : pyval) :
  configuration.["components"].[name] = Some sp →
  sp.["phase_equilibrium_form"].[k] = Some v →
  v = PObj fugacity ∧
  is_Some (configuration.["phase_equilibrium_state"].[k]) ∧
  ∃ ps pairs, k = KTuple ps ∧
    configuration.["phases_in_equilibrium"] ≫= elements_of = Some pairs ∧
    PTuple (PStr <$> ps) ∈ pairs.
Proof.
  intros Hsp Hk. entries Hsp; entries Hk.
  all: split; [done|]; split; [eexists; by vm_compute|].
  all: exists ["Vap"; "Liq"]; eexists; split; [done|];
         split; [by vm_compute | apply list_elem_of_here].
Qed.

Lemma equilibrium_forms_match_declarations_witness :
  PObj fugacity = PObj fugacity ∧
  is_Some (configuration.["phase_equilibrium_state"].[KTuple ["Vap"; "Liq"]]) ∧
  ∃ ps pairs, KTuple ["Vap"; "Liq"] = KTuple ps ∧
    configuration.["phases_in_equilibrium"] ≫= elements_of = Some pairs ∧
    PTuple (PStr <$> ps) ∈ pairs.
Proof.
  apply (equilibrium_forms_match_declarations "benzene" (KTuple ["Vap"; "Liq"])
           (species "benzene")); vm_compute; reflexivity.
Defined.

(** X9: every enthalpy correlation a species entry refers to comes with its
    enthalpy of formation, in J/mol: the vapor one for the ideal-gas
    enthalpy, the liquid one for the liquid enthalpy. *)
Theorem formation_enthalpies_supplied (name : pykey) (sp : pyval) :
  configuration.["components"].[name] = Some sp →
  (is_Some (sp.["enth_mol_ig_comp"]) →
   ∃ q, sp.["parameter_data"].["enth_mol_form_vap_comp_ref"] ≫= quantity =
          Some (q, Some (pyunits.J / pyunits.mol)%U)) ∧
  (is_Some (sp.["enth_mol_liq_comp"]) →
   ∃ q, sp.["parameter_data"].["enth_mol_form_liq_comp_ref"] ≫= quantity =
          Some (q, Some (pyunits.J / pyunits.mol)%U)).
Proof.
  intros Hsp. entries Hsp.
  all: split; intros [? H];
         first [ by vm_compute in H | eexists; by vm_compute ].
Qed.

Lemma formation_enthalpies_supplied_witness :
  (is_Some ((species "benzene").["enth_mol_ig_comp"]) →
   ∃ q, (species "benzene").["parameter_data"].["enth_mol_form_vap_comp_ref"]
          ≫= quantity = Some (q, Some (pyunits.J / pyunits.mol)%U)) ∧
  (is_Some ((species "benzene").["enth_mol_liq_comp"]) →
   ∃ q, (species "benzene").["parameter_data"].["enth_mol_form_liq_comp_ref"]
          ≫= quantity = Some (q, Some (pyunits.J / pyunits.mol)%U)).
Proof.
  apply (formation_enthalpies_supplied "benzene" (species "benzene")).
  vm_compute. reflexivity.
Defined.

(** X10: every declared phase uses the [Ideal] equation of state and is of
    class [LiquidPhase] or [VaporPhase], and no two declared phases are of
    the same class. *)
Theorem phases_ideal_and_distinct (p1 p2 : pykey) (ph1 ph2 : pyval) :
  configuration.["phases"].[p1] = Some ph1 →
  configuration.["phases"].[p2] = Some ph2 →
  ph1.["equation_of_state"] = Some (PObj Ideal) ∧
  (∃ cls, ph1.["type"] = Some (PObj cls) ∧ cls ∈ [LiquidPhase; VaporPhase]) ∧
  (ph1.["type"] = ph2.["type"] → p1 = p2).
Proof.
  intros H1 H2. entries H1; entries H2.
  all: split; [by vm_compute|]; split;
         [eexists; split; [by vm_compute | set_solver]|].
  all: intros H; by vm_compute in H.
Qed.

Lemma phases_ideal_and_distinct_witness :
  (default PNone (configuration.["phases"].["Liq"])).["equation_of_state"] =
    Some (PObj Ideal) ∧
  (∃ cls, (default PNone (configuration.["phases"].["Liq"])).["type"] =
            Some (PObj cls) ∧ cls ∈ [LiquidPhase; VaporPhase]) ∧
  ((default PNone (configuration.["phases"].["Liq"])).["type"] =
   (default PNone (configuration.["phases"].["Vap"])).["type"] →
   KStr "Liq" = KStr "Vap").
Proof.
  apply (phases_ideal_and_distinct "Liq" "Vap"); vm_compute; reflexivity.
Defined.

(** X11: the reference temperature and the reference pressure are given in
    the units of the corresponding state bounds and lie between the lower and
    the upper bound. *)
Theorem reference_state_within_bounds (var : string) :
  var ∈ ["temperature"; "pressure"] →
  ∃ r lo nom hi u,
    configuration.[KStr (var +:+ "_ref")] = Some (PTuple [r; PUnits u]) ∧
    configuration.["state_bounds"].[KStr var] =
      Some (PTuple [lo; nom; hi; PUnits u]) ∧
    py_le lo r = Some true ∧ py_le r hi = Some true.
Proof.
  intros Hvar.
  repeat (apply elem_of_cons in Hvar as [-> | Hvar]);
    try (by apply elem_of_nil in Hvar);
    do 5 eexists; split_and!; by vm_compute.
Qed.

Lemma reference_state_within_bounds_witness :
  ∃ r lo nom hi u,
    configuration.[KStr ("pressure" +:+ "_ref")] = Some (PTuple [r; PUnits u]) ∧
    configuration.["state_bounds"].[KStr "pressure"] =
      Some (PTuple [lo; nom; hi; PUnits u]) ∧
    py_le lo r = Some true ∧ py_le r hi = Some true.
Proof.
  apply (reference_state_within_bounds "pressure").
  apply list_elem_of_further, list_elem_of_here.
Defined.

(** X12: the species restricted by [valid_phase_types] are exactly those
    whose critical temperature is below the lower temperature bound; the
    critical temperature of every other species lies within the temperature
    bounds. *)
Theorem vapor_only_iff_supercritical (name : pykey) (sp : pyval) :
  configuration.["components"].[name] = Some sp →
  ∃ tc lo hi,
    (sp.["parameter_data"].["temperature_crit"] ≫= λ t, index t 0) = Some tc ∧
    (configuration.["state_bounds"].["temperature"] ≫= λ t, index t 0) = Some lo ∧
    (configuration.["state_bounds"].["temperature"] ≫= λ t, index t 2) = Some hi ∧
    (is_Some (sp.["valid_phase_types"]) ↔ py_lt tc lo = Some true) ∧
    (sp.["valid_phase_types"] = None →
     py_le lo tc = Some true ∧ py_le tc hi = Some true).
Proof.
  intros Hsp. entries Hsp.
  all: do 3 eexists; split_and!; try by vm_compute.
  all: first [ split; [intros [? H] | intros H]; by vm_compute in H
             | split; [intros _ | intros _; eexists]; by vm_compute
             | intros H; by vm_compute in H
             | intros _; split; by vm_compute ].
Qed.

Lemma vapor_only_iff_supercritical_witness :
  ∃ tc lo hi,
    ((species "methane").["parameter_data"].["temperature_crit"] ≫= λ t, index t 0)
      = Some tc ∧
    (configuration.["state_bounds"].["temperature"] ≫= λ t, index t 0) = Some lo ∧
    (configuration.["state_bounds"].["temperature"] ≫= λ t, index t 2) = Some hi ∧
    (is_Some ((species "methane").["valid_phase_types"]) ↔ py_lt tc lo = Some true) ∧
    ((species "methane").["valid_phase_types"] = None →
     py_le lo tc = Some true ∧ py_le tc hi = Some true).
Proof.
  apply (vapor_only_iff_supercritical "methane" (species "methane")).
  vm_compute. reflexivity.
Defined.

(** X13: the table needs no unit conversion for temperatures and molecular
    weights: every critical temperature, the temperature bounds and the
    reference temperature are in the base temperature unit, and every
    molecular weight is in the base mass unit per base amount unit. *)
Theorem units_follow_base_units (name : pykey) (sp : pyval) :
  configuration.["components"].[name] = Some sp →
  ∃ (uT uM uN : uexpr) (qc qw : Q) (r lo nom hi : pyval),
    configuration.["base_units"].["temperature"] = Some (PUnits uT) ∧
    configuration.["base_units"].["mass"] = Some (PUnits uM) ∧
    configuration.["base_units"].["amount"] = Some (PUnits uN) ∧
    sp.["parameter_data"].["temperature_crit"] ≫= quantity = Some (qc, Some uT) ∧
    sp.["parameter_data"].["mw"] ≫= quantity = Some (qw, Some (uM / uN)%U) ∧
    configuration.["temperature_ref"] = Some (PTuple [r; PUnits uT]) ∧
    configuration.["state_bounds"].["temperature"] =
      Some (PTuple [lo; nom; hi; PUnits uT]).
Proof.
  intros Hsp. entries Hsp.
  all: do 9 eexists; split_and!; by vm_compute.
Qed.

Lemma units_follow_base_units_witness :
  ∃ (uT uM uN : uexpr) (qc qw : Q) (r lo nom hi : pyval),
    configuration.["base_units"].["temperature"] = Some (PUnits uT) ∧
    configuration.["base_units"].["mass"] = Some (PUnits uM) ∧
    configuration.["base_units"].["amount"] = Some (PUnits uN) ∧
    (species "toluene").["parameter_data"].["temperature_crit"] ≫= quantity =
      Some (qc, Some uT) ∧
    (species "toluene").["parameter_data"].["mw"] ≫= quantity =
      Some (qw, Some (uM / uN)%U) ∧
    configuration.["temperature_ref"] = Some (PTuple [r; PUnits uT]) ∧
    configuration.["state_bounds"].["temperature"] =
      Some (PTuple [lo; nom; hi; PUnits uT]).
Proof.
  apply (units_follow_base_units "toluene" (species "toluene")).
  vm_compute. reflexivity.
Defined.

(** ** Instances of the invariants of the correlation forms *)

Lemma declared_forms_known_witness :
  ∃ method c, PObj NIST = PObj method ∧
              declared_form "pressure_sat_comp" method = Some c.
Proof.
  apply (declared_forms_known "toluene" (species "toluene") "pressure_sat_comp").
  - vm_compute. reflexivity.
  - unfold correlation_properties. do 3 apply list_elem_of_further.
    apply list_elem_of_here.
  - vm_compute. reflexivity.
Defined.

Lemma coefficient_groups_declared_witness :
  ∃ prop method c,
    (species "benzene").[prop] = Some (PObj method) ∧
    declared_form prop method = Some c ∧
    KStr "pressure_sat_comp_coeff" = KStr (coeff_entry c).
Proof.
  eapply (coefficient_groups_declared "benzene" "pressure_sat_comp_coeff"
            (species "benzene"));
    vm_compute; reflexivity.
Defined.

Lemma coefficient_keys_consistent_witness :
  (species "benzene").["parameter_data"].[coeff_entry Perrys_liquid_density] ≫= keys =
  (species "toluene").["parameter_data"].[coeff_entry Perrys_liquid_density] ≫= keys.
Proof.
  apply (coefficient_keys_consistent "benzene" "toluene" "dens_mol_liq_comp"
           (species "benzene") (species "toluene") Perrys);
    vm_compute; reflexivity.
Defined.
